(** * telegram.helpers: a shallow embedding and its specification

    The module [telegram/helpers.py] holds six stateless helpers:
    [escape_markdown], [mention_html], [mention_markdown],
    [effective_message_type], [is_valid_bot_username] and
    [create_deep_linked_url].  Each is embedded below as a Rocq function that
    follows the Python text statement by statement; the parts of the Python
    runtime they call ([re], [html.escape], [str] methods, [int], f-strings)
    are embedded first. *)

From Stdlib Require Import String Ascii NArith ZArith Bool Arith Lia DecimalString List.
Import ListNotations.

Set Implicit Arguments.

(** ** Python strings

    A Python [str] is a sequence of Unicode code points; [len] counts code
    points.  A character is its code point. *)

Definition char := N.
Definition str := list char.

Definition chr (a : ascii) : char := N_of_ascii a.
Arguments chr a%_char.

(** A string literal of the source. *)
Definition lit (s : string) : str := map chr (list_ascii_of_string s).
Arguments lit s%_string.

(** The double quote, the line feed and the backslash. *)
Definition dquote : char := 34%N.
Definition newline : char := 10%N.
Definition backslash : char := 92%N.

(** [a == b] on two strings. *)
Fixpoint str_eqb (a b : str) : bool :=
  match a, b with
  | [], [] => true
  | x :: a', y :: b' => N.eqb x y && str_eqb a' b'
  | _, _ => false
  end.

(** [s.startswith(prefix)] and [s.endswith(suffix)]. *)
Definition startswith (s prefix : str) : bool :=
  str_eqb (firstn (length prefix) s) prefix.

Definition endswith (s suffix : str) : bool :=
  (length suffix <=? length s)
  && str_eqb (skipn (length s - length suffix) s) suffix.

(** [s.replace(old, new)] for a pattern [old] of one character. *)
Fixpoint replace (old : char) (new : str) (s : str) : str :=
  match s with
  | [] => []
  | c :: s' => if N.eqb c old then new ++ replace old new s' else c :: replace old new s'
  end.

(** The ASCII range and the three ASCII classes the source names. *)
Definition is_ascii (c : char) : bool := (c <? 128)%N.
Definition is_ascii_upper (c : char) : bool := (chr "A" <=? c)%N && (c <=? chr "Z")%N.
Definition is_ascii_lower (c : char) : bool := (chr "a" <=? c)%N && (c <=? chr "z")%N.
Definition is_ascii_digit (c : char) : bool := (chr "0" <=? c)%N && (c <=? chr "9")%N.

(** Lower-casing of one character, on ASCII: [A-Z] moves to [a-z]. *)
Definition ascii_lower (c : char) : char :=
  if is_ascii_upper c then (c + 32)%N else c.

(** ** Exceptions

    A call either returns a value or raises; the two exception classes the
    module raises carry their message. *)

Inductive exn : Type :=
| ValueError (msg : str)
| TypeError (msg : str).

Inductive result (A : Type) : Type :=
| Ok (a : A)
| Raise (e : exn).
Arguments Ok {A} a.
Arguments Raise {A} e.

Definition bind {A B : Type} (c : result A) (k : A -> result B) : result B :=
  match c with
  | Ok a => k a
  | Raise e => Raise e
  end.

Declare Scope py_scope.
Delimit Scope py_scope with py.
Notation "x <- c ;; k" := (bind c (fun x => k))
  (at level 61, c at next level, right associativity) : py_scope.
Open Scope py_scope.

(** ** Python values passed as [version] and [user_id]

    Both parameters are documented as [int | str]. *)

Inductive pyobj : Type :=
| PyInt (z : Z)
| PyStr (s : str).

(** [str(z)] for an integer: its decimal digits, with a leading minus sign
    for a negative one.  (CPython's configurable cap on the number of digits
    of such a conversion is not modelled.) *)
Definition str_of_int (z : Z) : str := lit (NilZero.string_of_int (Z.to_int z)).

(** [f"{v}"]: the interpolation of a value into an f-string. *)
Definition format (v : pyobj) : str :=
  match v with
  | PyInt z => str_of_int z
  | PyStr s => s
  end.

(** [v == n] for an integer literal [n]: a string never equals an integer. *)
Definition eq_int (v : pyobj) (n : Z) : bool :=
  match v with
  | PyInt z => Z.eqb z n
  | PyStr _ => false
  end.

(** [x in l] for an optional string [x] and a list [l] of string literals. *)
Definition in_ (x : option str) (l : list str) : bool :=
  match x with
  | None => false
  | Some s => existsb (str_eqb s) l
  end.

(** ** The Unicode-dependent builtins

    [str.lower], [str.isdigit] and [int] on a string consult the Unicode
    character database.  They are taken as given, together with what they do
    on ASCII text, which is all the helpers' results depend on. *)

Class PyRuntime : Type := {
  (** [s.lower()] *)
  lower : str -> str;
  (** whether a character counts as a digit for [str.isdigit] *)
  chr_isdigit : char -> bool;
  (** [int(s)] for a string [s]: a value, or the conversion error *)
  int_of_str : str -> result Z;
  lower_ascii : forall s, forallb is_ascii s = true -> lower s = map ascii_lower s;
  chr_isdigit_ascii : forall c, is_ascii c = true -> chr_isdigit c = is_ascii_digit c
}.

Section Builtins.
Context {R : PyRuntime}.

(** [s.isdigit()]: every character is a digit and there is at least one. *)
Definition isdigit (s : str) : bool :=
  match s with
  | [] => false
  | _ => forallb chr_isdigit s
  end.

(** [int(v)] *)
Definition int (v : pyobj) : result Z :=
  match v with
  | PyInt z => Ok z
  | PyStr s => int_of_str s
  end.
End Builtins.

(** ** The [re] module, for the patterns the helpers use

    The three patterns of the source are built from character sets, the
    quantifiers [*] and [+] on a set, and the anchors [^] and [$]. *)

Module re.

(** An item of a character set [[...]]: one character or a range. *)
Inductive item : Type :=
| Chr (c : char)
| Range (lo hi : char).

Definition charset := list item.

Definition item_has (i : item) (c : char) : bool :=
  match i with
  | Chr d => N.eqb c d
  | Range lo hi => (lo <=? c)%N && (c <=? hi)%N
  end.

Definition in_set (cs : charset) (c : char) : bool :=
  existsb (fun i => item_has i c) cs.

(** A pattern is a sequence of nodes. *)
Inductive node : Type :=
| One (cs : charset)   (* [...]  *)
| Star (cs : charset)  (* [...]* *)
| Plus (cs : charset)  (* [...]+ *)
| Bol                  (* ^      *)
| Eol.                 (* $      *)

Definition pattern := list node.

(** [$] without [re.MULTILINE]: at the end of the string, or just before a
    line feed that is its last character. *)
Definition at_eol (rest : str) : bool :=
  match rest with
  | [] => true
  | [c] => N.eqb c newline
  | _ => false
  end.

(** Greedy repetition of a set with backtracking: consume as long as
    possible, and give characters back until the continuation matches. *)
Fixpoint star (cs : charset) (k : nat -> str -> bool) (pos : nat) (s : str) : bool :=
  match s with
  | c :: s' => if in_set cs c then star cs k (S pos) s' || k pos s else k pos s
  | [] => k pos []
  end.

(** The matcher at position [pos], [s] being what is left of the subject;
    [fin] decides whether the match may end where the pattern does. *)
Fixpoint run (p : pattern) (fin : str -> bool) (pos : nat) (s : str) : bool :=
  match p with
  | [] => fin s
  | One cs :: p' =>
      match s with
      | c :: s' => in_set cs c && run p' fin (S pos) s'
      | [] => false
      end
  | Star cs :: p' => star cs (run p' fin) pos s
  | Plus cs :: p' =>
      match s with
      | c :: s' => in_set cs c && star cs (run p' fin) (S pos) s'
      | [] => false
      end
  | Bol :: p' => Nat.eqb pos 0 && run p' fin pos s
  | Eol :: p' => at_eol s && run p' fin pos s
  end.

(** [re.match(p, s) is not None]: a match that starts at position 0 and
    may end anywhere. *)
Definition match_ (p : pattern) (s : str) : bool := run p (fun _ => true) 0 s.

(** [re.fullmatch(p, s) is not None]: the match must end with the string. *)
Definition fullmatch (p : pattern) (s : str) : bool :=
  run p (fun rest => match rest with [] => true | _ => false end) 0 s.

(** [re.escape(chars)] put between [[] and []]: every character of [chars]
    stands for itself in the set ([re.escape] puts a backslash before each
    one that would otherwise be read as syntax, [-], [\] and []] among
    them). *)
Definition escaped_set (chars : str) : charset := map Chr chars.

(** A replacement template: literal characters and [\1]. *)
Inductive titem : Type :=
| Lit (c : char)
| Group1.

Definition expand (template : list titem) (group1 : str) : str :=
  flat_map (fun t => match t with Lit c => [c] | Group1 => group1 end) template.

(** [re.sub("([...])", template, s)] for a pattern that is one capturing
    group around one character set: scan from the left; where the set
    matches, put the expanded template and go on after the match; elsewhere
    copy the character. *)
Fixpoint sub (cs : charset) (template : list titem) (s : str) : str :=
  match s with
  | [] => []
  | c :: s' =>
      if in_set cs c then expand template [c] ++ sub cs template s'
      else c :: sub cs template s'
  end.

End re.

(** ** [html.escape]

    The standard library's function, with its default [quote=True]: five
    replacements one after the other, the ampersand first. *)

Module html.

Definition escape (s : str) : str :=
  let s := replace (chr "&") (lit "&amp;") s in
  let s := replace (chr "<") (lit "&lt;") s in
  let s := replace (chr ">") (lit "&gt;") s in
  let s := replace dquote (lit "&quot;") s in
  let s := replace (chr "'") (lit "&#x27;") s in
  s.

End html.

(** ** [telegram.constants]

    The module imports [MessageLimit] and [MessageType] from
    [telegram.constants], which is outside this file: the three limits and
    the enumeration are parameters of the development. *)

Class MessageLimit : Type := {
  MIN_BOT_USERNAME_LENGTH : nat;
  MAX_BOT_USERNAME_LENGTH : nat;
  DEEP_LINK_LENGTH : nat
}.

(** ** [telegram.Message] and [telegram.Update]

    Modelled from the spec: the classes [Message] and [Update] are not part
    of the module.  A message exposes, for each message-type tag, a sub-field
    that is present (truthy) or absent; an update exposes an effective
    message that is a message or absent. *)

Record Message : Type := {
  (** the truth value of [message[message_type]] *)
  getitem : str -> bool
}.

Record Update : Type := {
  effective_message : option Message
}.

(** What [effective_message_type] may be handed: [isinstance] tells the
    three cases apart; the third carries [str(type(entity))]. *)
Inductive entity : Type :=
| IsMessage (m : Message)
| IsUpdate (u : Update)
| Neither (type_repr : str).

(** ** The helpers *)

Section Helpers.
Context {R : PyRuntime} {L : MessageLimit}.

(** *** [escape_markdown] (lines 46-78) *)

(** The replacement template [r"\\\1"]: a backslash, then group 1. *)
Definition escape_template : list re.titem := [re.Lit backslash; re.Group1].

Definition escape_markdown
    (text : str) (version : pyobj) (entity_type : option str) : result str :=
  escape_chars <-
    (v <- int version ;;
     if Z.eqb v 1 then Ok (lit "_*`[")
     else
       v <- int version ;;
       if Z.eqb v 2 then
         if in_ entity_type [lit "pre"; lit "code"] then Ok (lit "\`")
         else if in_ entity_type [lit "text_link"; lit "custom_emoji"] then Ok (lit "\)")
         else Ok (lit "\_*[]()~`>#+-=|{}.!")
       else Raise (ValueError (lit "Markdown version must be either 1 or 2!"))) ;;
  Ok (re.sub (re.escaped_set escape_chars) escape_template text).

(** *** [mention_html] (lines 81-92) *)

Definition mention_html (user_id : pyobj) (name : str) : str :=
  lit "<a href=" ++ [dquote] ++ lit "tg://user?id=" ++ format user_id
    ++ [dquote] ++ lit ">" ++ html.escape name ++ lit "</a>".

(** *** [mention_markdown] (lines 95-111) *)

Definition mention_markdown (user_id : pyobj) (name : str) (version : pyobj) : result str :=
  let tg_link := lit "tg://user?id=" ++ format user_id in
  if eq_int version 1 then
    Ok (lit "[" ++ name ++ lit "](" ++ tg_link ++ lit ")")
  else
    escaped <- escape_markdown name version None ;;
    Ok (lit "[" ++ escaped ++ lit "](" ++ tg_link ++ lit ")").

(** *** [effective_message_type] (lines 114-144) *)

Section Classifier.
(** The members of the enumeration [MessageType], in definition order. *)
Variable MessageType : list str.

Definition effective_message_type (e : entity) : result (option str) :=
  match e with
  | IsMessage message => Ok (find (fun message_type => getitem message message_type) MessageType)
  | IsUpdate u =>
      match effective_message u with
      | None => Ok None
      | Some message =>
          Ok (find (fun message_type => getitem message message_type) MessageType)
      end
  | Neither type_repr =>
      Raise (TypeError (lit "The entity is neither Message nor Update (got: "
                          ++ type_repr ++ lit ")"))
  end.
End Classifier.

(** *** [is_valid_bot_username] (lines 147-202) *)

(** The pattern [r"[A-Za-z0-9_]*"]. *)
Definition username_chars : re.charset :=
  [re.Range (chr "A") (chr "Z"); re.Range (chr "a") (chr "z");
   re.Range (chr "0") (chr "9"); re.Chr (chr "_")].

Definition username_pattern : re.pattern := [re.Star username_chars].

Definition is_valid_bot_username (bot_username : option str) : bool :=
  let min_length := MIN_BOT_USERNAME_LENGTH in
  let max_length := MAX_BOT_USERNAME_LENGTH in
  match bot_username with
  | None => false
  | Some bot_username =>
      if negb ((min_length <=? length bot_username)
               && (length bot_username <=? max_length)) then false
      else
        let normalized_username := lower bot_username in
        if negb (endswith normalized_username (lit "bot"))
           || startswith normalized_username (lit "_")
           || isdigit (firstn 1 normalized_username)
        then false
        else re.fullmatch username_pattern bot_username
  end.

(** *** [create_deep_linked_url] (lines 205-264) *)

(** The pattern [r"^[A-Za-z0-9_-]+$"]. *)
Definition payload_chars : re.charset :=
  [re.Range (chr "A") (chr "Z"); re.Range (chr "a") (chr "z");
   re.Range (chr "0") (chr "9"); re.Chr (chr "_"); re.Chr (chr "-")].

Definition payload_pattern : re.pattern := [re.Bol; re.Plus payload_chars; re.Eol].

Definition create_deep_linked_url
    (bot_username : str) (payload : option str) (group : bool) : result str :=
  if negb (is_valid_bot_username (Some bot_username)) then
    Raise (ValueError (lit "You must provide a valid bot_username."))
  else
    let base_url := lit "https://t.me/" ++ bot_username in
    match payload with
    | None | Some [] => Ok base_url   (* [not payload]: absent or empty *)
    | Some payload =>
        if DEEP_LINK_LENGTH <? length payload then
          Raise (ValueError (lit "The deep-linking payload must not exceed "
                               ++ str_of_int (Z.of_nat DEEP_LINK_LENGTH)
                               ++ lit " characters."))
        else if negb (re.match_ payload_pattern payload) then
          Raise (ValueError (lit "Only the following characters are allowed for deep-linked URLs: A-Z, a-z, 0-9, _ and -"))
        else
          let key := if group then lit "startgroup" else lit "start" in
          Ok (base_url ++ lit "?" ++ key ++ lit "=" ++ payload)
    end.

End Helpers.

(** ** A runtime and limits to run the model on

    [ascii_runtime] is the ASCII fragment of the builtins: it lower-cases
    [A-Z], counts [0-9] as digits and reads a string of decimal digits as an
    integer.  The examples below run on ASCII text, where it is what the
    class asks of every runtime. *)

Fixpoint digits_value (acc : Z) (s : str) : option Z :=
  match s with
  | [] => Some acc
  | c :: s' =>
      if is_ascii_digit c then digits_value (acc * 10 + (Z.of_N c - 48)) s' else None
  end.

Definition ascii_int_of_str (s : str) : result Z :=
  match s with
  | [] => Raise (ValueError (lit "invalid literal for int() with base 10"))
  | _ =>
      match digits_value 0 s with
      | Some z => Ok z
      | None => Raise (ValueError (lit "invalid literal for int() with base 10"))
      end
  end.

#[export] Instance ascii_runtime : PyRuntime := {|
  lower := map ascii_lower;
  chr_isdigit := is_ascii_digit;
  int_of_str := ascii_int_of_str;
  lower_ascii := fun s _ => eq_refl;
  chr_isdigit_ascii := fun c _ => eq_refl
|}.

(** The limits as published: the docstring of [is_valid_bot_username] gives
    the username bounds (between 4 and 32 characters, one character before
    the suffix [bot]); 64 is the length the Bot API allows for a deep-link
    parameter. *)
Definition telegram_limits : MessageLimit := {|
  MIN_BOT_USERNAME_LENGTH := 4;
  MAX_BOT_USERNAME_LENGTH := 32;
  DEEP_LINK_LENGTH := 64
|}.

(** ** The specification's vocabulary *)

(** The character classes the specification names. *)
Definition word_char (c : char) : Prop :=
  (chr "A" <= c <= chr "Z")%N \/ (chr "a" <= c <= chr "z")%N
  \/ (chr "0" <= c <= chr "9")%N \/ c = chr "_".

Definition payload_char (c : char) : Prop :=
  (chr "A" <= c <= chr "Z")%N \/ (chr "a" <= c <= chr "z")%N
  \/ (chr "0" <= c <= chr "9")%N \/ c = chr "_" \/ c = chr "-".

(** The active class of the Markdown escaper, by version and entity kind. *)
Definition active_class (version : Z) (entity_type : option str) : list char :=
  if Z.eqb version 1 then
    [chr "_"; chr "*"; chr "`"; chr "["]
  else if in_ entity_type [lit "pre"; lit "code"] then
    [backslash; chr "`"]
  else if in_ entity_type [lit "text_link"; lit "custom_emoji"] then
    [backslash; chr ")"]
  else
    [backslash; chr "_"; chr "*"; chr "["; chr "]"; chr "("; chr ")"; chr "~";
     chr "`"; chr ">"; chr "#"; chr "+"; chr "-"; chr "="; chr "|"; chr "{";
     chr "}"; chr "."; chr "!"].

Definition member (c : char) (cls : list char) : bool := existsb (N.eqb c) cls.

(** One pass from the left that puts a single backslash before each
    character of the class and copies every other character. *)
Definition insert_backslashes (cls : list char) (text : str) : str :=
  flat_map (fun c => if member c cls then [backslash; c] else [c]) text.

(** The entity that stands for an HTML special character. *)
Definition html_entity (c : char) : str :=
  if N.eqb c (chr "&") then lit "&amp;"
  else if N.eqb c (chr "<") then lit "&lt;"
  else if N.eqb c (chr ">") then lit "&gt;"
  else if N.eqb c dquote then lit "&quot;"
  else if N.eqb c (chr "'") then lit "&#x27;"
  else [c].

Definition encode_entities (name : str) : str := flat_map html_entity name.

(** The first tag of the enumeration whose sub-field is truthy: [r] is that
    tag when there is one, and nothing when no sub-field is truthy. *)
Definition first_truthy (MessageType : list str) (m : Message) (r : option str) : Prop :=
  match r with
  | Some tag =>
      exists before after,
        MessageType = before ++ tag :: after
        /\ getitem m tag = true
        /\ (forall t, In t before -> getitem m t = false)
  | None => forall t, In t MessageType -> getitem m t = false
  end.

(** A text in which each character of the class stands right after a
    backslash of its own; a character outside the class stands alone. *)
Inductive well_escaped (cls : list char) : str -> Prop :=
| well_escaped_nil : well_escaped cls []
| well_escaped_plain (c : char) (rest : str) :
    member c cls = false -> well_escaped cls rest -> well_escaped cls (c :: rest)
| well_escaped_pair (c : char) (rest : str) :
    member c cls = true -> well_escaped cls rest ->
    well_escaped cls (backslash :: c :: rest).

(** The payload as text: an absent payload counts as the empty one. *)
Definition text_of (payload : option str) : str :=
  match payload with
  | None => []
  | Some p => p
  end.

(** The four characters that open or close markup in HTML text and
    attribute values. *)
Definition html_markup : list char := [chr "<"; chr ">"; dquote; chr "'"].

(** What follows the username in a URL: nothing for an empty payload, the
    query string otherwise. *)
Definition query_of (payload : str) (group : bool) : str :=
  match payload with
  | [] => []
  | _ => lit "?" ++ (if group then lit "startgroup" else lit "start") ++ lit "=" ++ payload
  end.

(** * Properties *)

(** ** Strings *)

Lemma str_eqb_eq (a b : str) : str_eqb a b = true <-> a = b.
Proof.
  revert b; induction a as [|x a IH]; intros [|y b]; simpl; split;
    try congruence; try reflexivity.
  - intros H. apply andb_true_iff in H as [Hx Hab].
    apply N.eqb_eq in Hx. apply IH in Hab. congruence.
  - intros H. injection H as -> ->.
    rewrite N.eqb_refl. simpl. now apply IH.
Qed.

Lemma startswith_prefix (s prefix : str) :
  startswith s prefix = true <-> exists rest, s = prefix ++ rest.
Proof.
  unfold startswith. rewrite str_eqb_eq. split.
  - intros H. exists (skipn (length prefix) s).
    rewrite <- H at 1. symmetry. apply firstn_skipn.
  - intros [rest ->]. rewrite firstn_app, Nat.sub_diag, firstn_all.
    simpl. apply app_nil_r.
Qed.

Lemma endswith_suffix (s suffix : str) :
  endswith s suffix = true <-> exists front, s = front ++ suffix.
Proof.
  unfold endswith. rewrite andb_true_iff, Nat.leb_le, str_eqb_eq. split.
  - intros [_ H]. exists (firstn (length s - length suffix) s).
    rewrite <- H at 2. symmetry. apply firstn_skipn.
  - intros [front ->]. rewrite length_app. split; [lia|].
    replace (length front + length suffix - length suffix) with (length front + 0) by lia.
    rewrite skipn_app, Nat.add_0_r, skipn_all.
    replace (length front - length front) with 0 by lia. reflexivity.
Qed.

Lemma replace_flat_map (old : char) (new s : str) :
  replace old new s = flat_map (fun c => if N.eqb c old then new else [c]) s.
Proof.
  induction s as [|c s IH]; simpl; [reflexivity|].
  rewrite IH. now destruct (N.eqb c old).
Qed.

Lemma flat_map_flat_map (A B C : Type) (f : A -> list B) (g : B -> list C) (l : list A) :
  flat_map g (flat_map f l) = flat_map (fun a => flat_map g (f a)) l.
Proof.
  induction l as [|a l IH]; simpl; [reflexivity|].
  now rewrite flat_map_app, IH.
Qed.

(** ** Character sets *)

Section Isdigit.
Context {R : PyRuntime}.

Lemma isdigit_first (s : str) :
  isdigit (firstn 1 s) = true <-> exists c rest, s = c :: rest /\ chr_isdigit c = true.
Proof.
  destruct s as [|c rest]; simpl.
  - split; [discriminate|]. intros (c & rest & H & _). discriminate.
  - rewrite andb_true_r. split.
    + intros H. now exists c, rest.
    + intros (c' & rest' & H & Hd). now injection H as -> ->.
Qed.
End Isdigit.

Lemma username_chars_word (c : char) :
  re.in_set username_chars c = true <-> word_char c.
Proof.
  unfold re.in_set, username_chars, word_char. simpl.
  rewrite !orb_true_iff, !andb_true_iff, !N.leb_le, N.eqb_eq. intuition congruence.
Qed.

Lemma payload_chars_payload (c : char) :
  re.in_set payload_chars c = true <-> payload_char c.
Proof.
  unfold re.in_set, payload_chars, payload_char. simpl.
  rewrite !orb_true_iff, !andb_true_iff, !N.leb_le, !N.eqb_eq. intuition congruence.
Qed.

Lemma escaped_set_member (chars : str) (c : char) :
  re.in_set (re.escaped_set chars) c = member c chars.
Proof.
  unfold re.in_set, re.escaped_set, member.
  induction chars as [|d chars IH]; simpl; [reflexivity|]. now rewrite IH.
Qed.

Lemma member_In (c : char) (cls : list char) : member c cls = true <-> In c cls.
Proof.
  unfold member. rewrite existsb_exists. split.
  - intros (d & Hd & E). apply N.eqb_eq in E. now subst.
  - intros H. exists c. split; [assumption | apply N.eqb_refl].
Qed.

(** ** The matcher *)

(** What the greedy loop accepts: some run of set characters, after which
    the continuation accepts the rest. *)
Lemma star_true (cs : re.charset) (k : nat -> str -> bool) (s : str) (pos : nat) :
  re.star cs k pos s = true <->
  exists w rest, s = w ++ rest
    /\ forallb (re.in_set cs) w = true
    /\ k (pos + length w) rest = true.
Proof.
  revert pos; induction s as [|c s IH]; intros pos; simpl.
  - split.
    + intros H. exists [], []. simpl. now rewrite Nat.add_0_r.
    + intros (w & rest & E & _ & Hk).
      symmetry in E. apply app_eq_nil in E as [-> ->].
      simpl in Hk. now rewrite Nat.add_0_r in Hk.
  - destruct (re.in_set cs c) eqn:Hc.
    + rewrite orb_true_iff, IH. split.
      * intros [(w & rest & -> & Hw & Hk) | Hk].
        -- exists (c :: w), rest. simpl. rewrite Hc, Hw.
           rewrite Nat.add_succ_r. repeat split; assumption.
        -- exists [], (c :: s). simpl. now rewrite Nat.add_0_r.
      * intros ([|d w] & rest & E & Hw & Hk); simpl in *.
        -- right. subst rest. now rewrite Nat.add_0_r in Hk.
        -- left. injection E as <- ->. exists w, rest.
           apply andb_true_iff in Hw as [_ Hw].
           rewrite Nat.add_succ_r in Hk. repeat split; assumption.
    + split.
      * intros Hk. exists [], (c :: s). simpl. now rewrite Nat.add_0_r.
      * intros ([|d w] & rest & E & Hw & Hk); simpl in *.
        -- subst rest. now rewrite Nat.add_0_r in Hk.
        -- injection E as <- ->. rewrite Hc in Hw. discriminate.
Qed.

Lemma at_eol_true (rest : str) :
  re.at_eol rest = true <-> rest = [] \/ rest = [newline].
Proof.
  destruct rest as [|c [|d rest]]; simpl.
  - intuition.
  - rewrite N.eqb_eq. split; [intros ->; now right | intros [H|H]; congruence].
  - split; [discriminate | intros [H|H]; discriminate].
Qed.

(** [re.fullmatch(r"[...]*", s)] holds when every character is in the set. *)
Lemma fullmatch_star (cs : re.charset) (s : str) :
  re.fullmatch [re.Star cs] s = forallb (re.in_set cs) s.
Proof.
  unfold re.fullmatch. simpl. generalize 0.
  induction s as [|c s IH]; intros pos; simpl; [reflexivity|].
  destruct (re.in_set cs c); simpl; [|reflexivity].
  rewrite IH. apply orb_false_r.
Qed.

(** [re.match(r"^[...]+$", s)] holds when [s] is a non-empty run of set
    characters, possibly followed by one line feed. *)
Lemma match_bol_plus_eol (cs : re.charset) (s : str) :
  re.match_ [re.Bol; re.Plus cs; re.Eol] s = true <->
  exists w, w <> [] /\ forallb (re.in_set cs) w = true
            /\ (s = w \/ s = w ++ [newline]).
Proof.
  unfold re.match_. simpl. destruct s as [|c s].
  - split; [discriminate|].
    intros (w & Hw & _ & [E|E]); [congruence|].
    destruct w; [congruence | discriminate].
  - rewrite andb_true_iff, star_true. split.
    + intros (Hc & w & rest & -> & Hw & Hk).
      rewrite andb_true_r in Hk. apply at_eol_true in Hk.
      exists (c :: w). simpl. rewrite Hc, Hw. repeat split; [discriminate|].
      destruct Hk as [-> | ->]; [left; now rewrite app_nil_r | now right].
    + intros ([|d w] & Hne & Hw & E); [congruence|]. simpl in Hw.
      apply andb_true_iff in Hw as [Hd Hw].
      destruct E as [E|E]; simpl in E; injection E as -> ->.
      * split; [assumption|]. exists w, []. rewrite app_nil_r.
        repeat split; assumption.
      * split; [assumption|]. exists w, [newline]. repeat split; assumption.
Qed.

(** ** [html.escape] *)

Lemma html_escape_encode (s : str) : html.escape s = encode_entities s.
Proof.
  unfold html.escape, encode_entities. cbv zeta.
  rewrite !replace_flat_map, !flat_map_flat_map.
  apply flat_map_ext. intros c. unfold html_entity.
  destruct (N.eqb_spec c (chr "&")) as [->|H1]; [reflexivity|].
  destruct (N.eqb_spec c (chr "<")) as [->|H2]; [reflexivity|].
  destruct (N.eqb_spec c (chr ">")) as [->|H3]; [reflexivity|].
  destruct (N.eqb_spec c dquote) as [->|H4]; [reflexivity|].
  destruct (N.eqb_spec c (chr "'")) as [->|H5]; [reflexivity|].
  apply N.eqb_neq in H2, H3, H4, H5.
  cbn [flat_map app]. rewrite H2.
  cbn [flat_map app]. rewrite H3.
  cbn [flat_map app]. rewrite H4.
  cbn [flat_map app]. rewrite H5.
  reflexivity.
Qed.

(** ** [escape_markdown] *)

Lemma sub_insert_backslashes (chars text : str) :
  re.sub (re.escaped_set chars) escape_template text = insert_backslashes chars text.
Proof.
  unfold insert_backslashes.
  induction text as [|c text IH]; simpl; [reflexivity|].
  rewrite escaped_set_member, IH. now destruct (member c chars).
Qed.

Lemma In_insert_backslashes (cls : list char) (c : char) (text : str) :
  In c text -> In c (insert_backslashes cls text).
Proof.
  unfold insert_backslashes. intros H. apply in_flat_map.
  exists c. split; [assumption|].
  destruct (member c cls); simpl; auto.
Qed.

Lemma insert_backslashes_id (cls : list char) (text : str) :
  (forall c, In c text -> ~ In c cls) -> insert_backslashes cls text = text.
Proof.
  unfold insert_backslashes.
  induction text as [|c text IH]; intros H; simpl; [reflexivity|].
  destruct (member c cls) eqn:Hc.
  - apply member_In in Hc. exfalso. apply (H c); simpl; auto.
  - simpl. f_equal. apply IH. intros d Hd. apply H. now right.
Qed.

Lemma insert_backslashes_length (cls : list char) (text : str) :
  length text <= length (insert_backslashes cls text).
Proof.
  unfold insert_backslashes.
  induction text as [|c text IH]; simpl; [lia|].
  rewrite length_app. destruct (member c cls); simpl; lia.
Qed.

Lemma insert_backslashes_longer (cls : list char) (text : str) :
  (exists c, In c text /\ In c cls) ->
  length text < length (insert_backslashes cls text).
Proof.
  intros (c & Hin & Hcls). apply member_In in Hcls.
  induction text as [|d text IH]; [destruct Hin|].
  pose proof (insert_backslashes_length cls text) as Hle.
  unfold insert_backslashes in *. simpl. rewrite length_app.
  destruct Hin as [-> | Hin].
  - rewrite Hcls. simpl. lia.
  - specialize (IH Hin). destruct (member d cls); simpl; lia.
Qed.

Section EscapeMarkdown.
Context {R : PyRuntime}.

(** The function in one equation: the conversion error if [int] raises,
    the escaped text for the versions 1 and 2, the module's own error
    otherwise. *)
Lemma escape_markdown_unfold (text : str) (version : pyobj) (entity_type : option str) :
  escape_markdown text version entity_type =
  match int version with
  | Raise e => Raise e
  | Ok z =>
      if Z.eqb z 1 || Z.eqb z 2 then
        Ok (insert_backslashes (active_class z entity_type) text)
      else Raise (ValueError (lit "Markdown version must be either 1 or 2!"))
  end.
Proof.
  unfold escape_markdown, active_class.
  destruct (int version) as [z|e]; cbn [bind]; [|reflexivity].
  destruct (Z.eqb z 1); cbn [bind orb].
  - now rewrite sub_insert_backslashes.
  - destruct (Z.eqb z 2); cbn [bind]; [|reflexivity].
    destruct (in_ entity_type [lit "pre"; lit "code"]); cbn [bind];
      [now rewrite sub_insert_backslashes|].
    destruct (in_ entity_type [lit "text_link"; lit "custom_emoji"]); cbn [bind];
      now rewrite sub_insert_backslashes.
Qed.

Lemma escape_markdown_value (text : str) (version : pyobj) (entity_type : option str) (z : Z) :
  int version = Ok z -> z = 1%Z \/ z = 2%Z ->
  escape_markdown text version entity_type
  = Ok (insert_backslashes (active_class z entity_type) text).
Proof.
  intros Hint Hz. rewrite escape_markdown_unfold, Hint.
  now destruct Hz as [-> | ->].
Qed.

(** C3. For every text, every version that [int] turns into 1 or 2 and every
    entity-type hint, [escape_markdown] returns the text with one backslash
    put before each character of the active class and every other
    character copied, in one pass from the left.  The active class is
    [_ * ` [] for version 1; backslash and backquote for version 2 with
    [pre] or [code]; backslash and [)] for version 2 with [text_link] or
    [custom_emoji]; the nineteen characters of [active_class] for version 2
    otherwise. *)
Theorem escape_markdown_spec
    (text : str) (version : pyobj) (entity_type : option str) (z : Z) :
  int version = Ok z -> z = 1%Z \/ z = 2%Z ->
  escape_markdown text version entity_type
  = Ok (insert_backslashes (active_class z entity_type) text).
Proof.
  intros Hint Hz. unfold escape_markdown.
  rewrite Hint. cbn [bind]. unfold active_class.
  destruct Hz as [-> | ->]; cbn [Z.eqb Pos.eqb bind].
  - now rewrite sub_insert_backslashes.
  - destruct (in_ entity_type [lit "pre"; lit "code"]); cbn [bind];
      [now rewrite sub_insert_backslashes|].
    destruct (in_ entity_type [lit "text_link"; lit "custom_emoji"]); cbn [bind];
      now rewrite sub_insert_backslashes.
Qed.

(** C7. [escape_markdown] raises its [ValueError] whenever [int(version)]
    is an integer other than 1 and 2; when [int(version)] itself raises,
    that error comes out instead; and when [int(version)] is 1 or 2 the
    call returns a string, whatever the text and the entity-type hint. *)
Theorem escape_markdown_errors
    (text : str) (version : pyobj) (entity_type : option str) :
  (forall z, int version = Ok z -> z <> 1%Z -> z <> 2%Z ->
     escape_markdown text version entity_type
     = Raise (ValueError (lit "Markdown version must be either 1 or 2!")))
  /\ (forall e, int version = Raise e ->
        escape_markdown text version entity_type = Raise e)
  /\ (forall z, int version = Ok z -> z = 1%Z \/ z = 2%Z ->
        exists escaped, escape_markdown text version entity_type = Ok escaped).
Proof.
  rewrite escape_markdown_unfold. repeat split.
  - intros z -> H1 H2.
    apply Z.eqb_neq in H1, H2. now rewrite H1, H2.
  - now intros e ->.
  - intros z -> [-> | ->]; eexists; reflexivity.
Qed.

(** C9. On a text that holds no character of the active class,
    [escape_markdown] returns the text itself, for the versions 1 and 2 and
    every entity-type hint. *)
Theorem escape_markdown_identity
    (text : str) (version : pyobj) (entity_type : option str) (z : Z) :
  int version = Ok z -> z = 1%Z \/ z = 2%Z ->
  (forall c, In c text -> ~ In c (active_class z entity_type)) ->
  escape_markdown text version entity_type = Ok text.
Proof.
  intros Hint Hz Hclean.
  rewrite (escape_markdown_value text version entity_type Hint Hz).
  now rewrite insert_backslashes_id.
Qed.

(** C10. Escaping is not idempotent: for the versions 1 and 2, every
    entity-type hint and every text [x] that holds a character of the
    active class, escaping the escaped text gives a string that differs
    from the escaped text (it is strictly longer). *)
Theorem escape_markdown_not_idempotent
    (x : str) (version : pyobj) (entity_type : option str) (z : Z) :
  int version = Ok z -> z = 1%Z \/ z = 2%Z ->
  (exists c, In c x /\ In c (active_class z entity_type)) ->
  exists once twice,
    escape_markdown x version entity_type = Ok once
    /\ escape_markdown once version entity_type = Ok twice
    /\ twice <> once
    /\ length once < length twice.
Proof.
  intros Hint Hz (c & Hin & Hcls).
  set (cls := active_class z entity_type) in *.
  exists (insert_backslashes cls x), (insert_backslashes cls (insert_backslashes cls x)).
  assert (Hlen : length (insert_backslashes cls x)
                 < length (insert_backslashes cls (insert_backslashes cls x))).
  { apply insert_backslashes_longer. exists c. split; [|assumption].
    now apply In_insert_backslashes. }
  repeat split.
  - now apply escape_markdown_value.
  - now apply escape_markdown_value.
  - intros E. rewrite E in Hlen. lia.
  - assumption.
Qed.

End EscapeMarkdown.

(** ** [mention_html] and [mention_markdown] *)

(** C8. [mention_html] returns the anchor
    [<a href="tg://user?id={user_id}">{escaped_name}</a>]: the name has each
    of [&], [<], [>], the double and the single quote replaced by its
    entity, and the user id is put in as it is (a string id is not
    escaped).  The function is total: it has no path that raises. *)
Theorem mention_html_spec (user_id : pyobj) (name : str) :
  mention_html user_id name
  = lit "<a href=" ++ [dquote] ++ lit "tg://user?id=" ++ format user_id
      ++ [dquote] ++ lit ">" ++ encode_entities name ++ lit "</a>"
  /\ (forall z, user_id = PyInt z -> format user_id = str_of_int z)
  /\ (forall s, user_id = PyStr s -> format user_id = s).
Proof.
  unfold mention_html. rewrite html_escape_encode.
  repeat split; now intros ? ->.
Qed.

Section MentionMarkdown.
Context {R : PyRuntime}.

(** C6. With version 1, [mention_markdown] returns
    [[{name}](tg://user?id={user_id})] with the name as it is.  With any
    other version (2 or greater among them) the name goes through
    [escape_markdown] with no entity-type hint: the result holds the
    escaped name when the escaper returns, and is the escaper's error when
    it raises, which it does for every integer version other than 1 and
    2. *)
Theorem mention_markdown_spec (user_id : pyobj) (name : str) :
  mention_markdown user_id name (PyInt 1)
  = Ok (lit "[" ++ name ++ lit "](tg://user?id=" ++ format user_id ++ lit ")")
  /\ (forall version escaped,
        eq_int version 1 = false ->
        escape_markdown name version None = Ok escaped ->
        mention_markdown user_id name version
        = Ok (lit "[" ++ escaped ++ lit "](tg://user?id=" ++ format user_id ++ lit ")"))
  /\ (forall version e,
        eq_int version 1 = false ->
        escape_markdown name version None = Raise e ->
        mention_markdown user_id name version = Raise e)
  /\ mention_markdown user_id name (PyInt 2)
     = Ok (lit "[" ++ insert_backslashes (active_class 2 None) name
             ++ lit "](tg://user?id=" ++ format user_id ++ lit ")")
  /\ (forall z, (2 < z)%Z ->
        mention_markdown user_id name (PyInt z)
        = Raise (ValueError (lit "Markdown version must be either 1 or 2!"))).
Proof.
  unfold mention_markdown. repeat split.
  - intros version escaped -> ->. reflexivity.
  - intros version e -> ->. reflexivity.
  - cbn [eq_int Z.eqb Pos.eqb].
    now rewrite (escape_markdown_value name (PyInt 2) None eq_refl (or_intror eq_refl)).
  - intros z Hz. cbn [eq_int].
    destruct (Z.eqb_spec z 1) as [->|H1]; [lia|].
    rewrite escape_markdown_unfold. cbn [int].
    destruct (Z.eqb_spec z 1); [lia|]. destruct (Z.eqb_spec z 2); [lia|].
    reflexivity.
Qed.
End MentionMarkdown.

(** ** [effective_message_type] *)

Lemma find_first_truthy (MessageType : list str) (m : Message) :
  first_truthy MessageType m (find (fun t => getitem m t) MessageType).
Proof.
  induction MessageType as [|t l IH]; simpl.
  - intros t [].
  - destruct (getitem m t) eqn:Ht.
    + exists [], l. repeat split; [assumption | intros ? []].
    + destruct (find (fun t => getitem m t) l) as [tag|]; simpl in *.
      * destruct IH as (before & after & -> & Htag & Hbefore).
        exists (t :: before), after. repeat split; [assumption|].
        intros t' [<- | H]; auto.
      * intros t' [<- | H]; auto.
Qed.

Example effective_message_type_first_wins :
  effective_message_type [lit "text"; lit "photo"; lit "video"]
    (IsMessage {| getitem := fun t => str_eqb t (lit "photo") || str_eqb t (lit "video") |})
  = Ok (Some (lit "photo")).
Proof. reflexivity. Qed.

(** C4. Given a message, or an update whose effective message is a message,
    [effective_message_type] returns the first tag of the enumeration whose
    sub-field on that message is truthy (so the first one wins when several
    are), and nothing when no sub-field is; given an update with no
    effective message it returns nothing; given anything else it raises a
    [TypeError]. *)
Theorem effective_message_type_spec (MessageType : list str) :
  (forall m, exists r,
      effective_message_type MessageType (IsMessage m) = Ok r
      /\ first_truthy MessageType m r)
  /\ (forall m, exists r,
        effective_message_type MessageType (IsUpdate {| effective_message := Some m |}) = Ok r
        /\ first_truthy MessageType m r)
  /\ effective_message_type MessageType (IsUpdate {| effective_message := None |}) = Ok None
  /\ (forall type_repr, exists msg,
        effective_message_type MessageType (Neither type_repr) = Raise (TypeError msg)).
Proof.
  repeat split.
  - intros m. eexists. split; [reflexivity | apply find_first_truthy].
  - intros m. eexists. split; [reflexivity | apply find_first_truthy].
  - intros type_repr. eexists. reflexivity.
Qed.

(** ** [is_valid_bot_username] *)

Section Username.
Context {R : PyRuntime} {L : MessageLimit}.

(** The early returns as one conjunction of the five tests. *)
Lemma is_valid_bot_username_tests (s : str) :
  is_valid_bot_username (Some s) = true <->
  (MIN_BOT_USERNAME_LENGTH <=? length s) && (length s <=? MAX_BOT_USERNAME_LENGTH) = true
  /\ endswith (lower s) (lit "bot") = true
  /\ startswith (lower s) (lit "_") = false
  /\ isdigit (firstn 1 (lower s)) = false
  /\ re.fullmatch username_pattern s = true.
Proof.
  unfold is_valid_bot_username. cbv zeta.
  destruct ((MIN_BOT_USERNAME_LENGTH <=? length s)
            && (length s <=? MAX_BOT_USERNAME_LENGTH)); cbn [negb];
    [|intuition discriminate].
  destruct (endswith (lower s) (lit "bot")); cbn [negb orb];
    [|intuition discriminate].
  destruct (startswith (lower s) (lit "_")); cbn [orb];
    [intuition discriminate|].
  destruct (isdigit (firstn 1 (lower s))); intuition discriminate.
Qed.

(** C2. [is_valid_bot_username u] is [true] exactly when [u] is present,
    its length lies between the configured minimum and maximum (both
    included), its lower-cased form ends with [bot], does not start with an
    underscore and does not start with a digit, and each of its characters
    is an ASCII letter, a digit or an underscore.  The function is total
    with a boolean result: a failed test gives [false], nothing raises. *)
Theorem is_valid_bot_username_iff (u : option str) :
  is_valid_bot_username u = true <->
  exists s,
    u = Some s
    /\ MIN_BOT_USERNAME_LENGTH <= length s <= MAX_BOT_USERNAME_LENGTH
    /\ (exists front, lower s = front ++ lit "bot")
    /\ ~ (exists rest, lower s = chr "_" :: rest)
    /\ ~ (exists c rest, lower s = c :: rest /\ chr_isdigit c = true)
    /\ Forall word_char s.
Proof.
  destruct u as [s|].
  2:{ split; [discriminate | intros (s & H & _); discriminate]. }
  rewrite is_valid_bot_username_tests.
  rewrite andb_true_iff, !Nat.leb_le, endswith_suffix.
  rewrite <- not_true_iff_false, startswith_prefix.
  rewrite <- not_true_iff_false, isdigit_first.
  unfold username_pattern. rewrite fullmatch_star, forallb_forall.
  split.
  - intros (Hlen & Hbot & Hus & Hdig & Hchars).
    exists s. repeat split; try tauto.
    apply Forall_forall. intros c Hc. now apply username_chars_word, Hchars.
  - intros (s' & E & Hlen & Hbot & Hus & Hdig & Hchars).
    injection E as <-. rewrite Forall_forall in Hchars. repeat split; try tauto.
    intros c Hc. now apply username_chars_word, Hchars.
Qed.
End Username.

(** On ASCII text every runtime gives the verdict of the ASCII one. *)
Lemma ascii_lower_is_ascii (c : char) : is_ascii c = true -> is_ascii (ascii_lower c) = true.
Proof.
  unfold ascii_lower, is_ascii, is_ascii_upper. intros H.
  destruct ((chr "A" <=? c)%N && (c <=? chr "Z")%N) eqn:E; [|assumption].
  apply andb_true_iff in E as [_ E]. apply N.leb_le in E. apply N.ltb_lt.
  change (chr "Z") with 90%N in E. lia.
Qed.

Lemma is_valid_bot_username_ascii (R : PyRuntime) (L : MessageLimit) (s : str) :
  forallb is_ascii s = true ->
  @is_valid_bot_username R L (Some s) = @is_valid_bot_username ascii_runtime L (Some s).
Proof.
  intros Hs. unfold is_valid_bot_username. cbv zeta.
  rewrite (lower_ascii s Hs). cbn [lower ascii_runtime].
  replace (@isdigit R (firstn 1 (map ascii_lower s)))
    with (@isdigit ascii_runtime (firstn 1 (map ascii_lower s))); [reflexivity|].
  destruct s as [|c s]; [reflexivity|]. simpl in Hs |- *.
  apply andb_true_iff in Hs as [Hc _].
  now rewrite chr_isdigit_ascii by now apply ascii_lower_is_ascii.
Qed.

(** ** [create_deep_linked_url] *)

Lemma forallb_payload_chars (w : str) :
  forallb (re.in_set payload_chars) w = true <-> Forall payload_char w.
Proof.
  rewrite forallb_forall, Forall_forall.
  split; intros H c Hc; now apply payload_chars_payload, H.
Qed.

(** What the payload test lets through: a non-empty run of payload
    characters, with or without one line feed after it. *)
Lemma payload_pattern_matches (payload : str) :
  re.match_ payload_pattern payload = true <->
  exists w, w <> [] /\ Forall payload_char w
            /\ (payload = w \/ payload = w ++ [newline]).
Proof.
  unfold payload_pattern. rewrite match_bol_plus_eol.
  split; intros (w & Hne & Hw & E); exists w; repeat split;
    try assumption; now apply forallb_payload_chars.
Qed.

Section DeepLink.
Context {R : PyRuntime} {L : MessageLimit}.

(** C5. For a valid bot username, [create_deep_linked_url] returns
    [https://t.me/{username}] with no query string when the payload is
    absent or empty; for a non-empty payload within the length limit whose
    characters are all in [A-Z a-z 0-9 _ -], it returns
    [https://t.me/{username}?startgroup={payload}] when the group flag is
    set and [https://t.me/{username}?start={payload}] otherwise. *)
Theorem create_deep_linked_url_value
    (bot_username : str) (payload : option str) (group : bool) :
  is_valid_bot_username (Some bot_username) = true ->
  (payload = None \/ payload = Some [] ->
   create_deep_linked_url bot_username payload group
   = Ok (lit "https://t.me/" ++ bot_username))
  /\ (forall p,
        payload = Some p -> p <> [] ->
        length p <= DEEP_LINK_LENGTH -> Forall payload_char p ->
        create_deep_linked_url bot_username payload group
        = Ok (lit "https://t.me/" ++ bot_username
                ++ (if group then lit "?startgroup=" else lit "?start=") ++ p)).
Proof.
  intros Hvalid. unfold create_deep_linked_url. rewrite Hvalid. cbn [negb]. split.
  - intros [-> | ->]; reflexivity.
  - intros p -> Hne Hlen Hchars.
    destruct p as [|c p]; [congruence|].
    destruct (Nat.ltb_spec DEEP_LINK_LENGTH (length (c :: p))) as [Hlt|_]; [lia|].
    assert (re.match_ payload_pattern (c :: p) = true) as ->.
    { apply payload_pattern_matches. exists (c :: p). repeat split; auto. }
    cbn [negb]. rewrite <- app_assoc. now destruct group.
Qed.

(** X1. When the call raises: the username is invalid, or the payload is
    non-empty and too long, or it is non-empty and not a run of payload
    characters with at most one line feed after it. *)
Lemma create_deep_linked_url_raises_iff
    (bot_username : str) (payload : option str) (group : bool) :
  (exists e, create_deep_linked_url bot_username payload group = Raise e) <->
  is_valid_bot_username (Some bot_username) = false
  \/ (exists p, payload = Some p /\ p <> [] /\ DEEP_LINK_LENGTH < length p)
  \/ (exists p, payload = Some p /\ p <> []
                /\ ~ (exists w, w <> [] /\ Forall payload_char w
                                /\ (p = w \/ p = w ++ [newline]))).
Proof.
  unfold create_deep_linked_url.
  destruct (is_valid_bot_username (Some bot_username)); cbn [negb].
  2:{ split; [now left | intros _; eexists; reflexivity]. }
  destruct payload as [[|c p]|].
  - split; [intros (e & H); discriminate|].
    intros [H | [(p & E & Hne & _) | (p & E & Hne & _)]];
      [discriminate | injection E as <-; congruence | injection E as <-; congruence].
  - destruct (Nat.ltb_spec DEEP_LINK_LENGTH (length (c :: p))) as [Hlt|Hle].
    { split; [|intros _; eexists; reflexivity].
      intros _. right. left. exists (c :: p). repeat split; [discriminate | assumption]. }
    destruct (re.match_ payload_pattern (c :: p)) eqn:Hm; cbn [negb].
    + apply payload_pattern_matches in Hm.
      split; [intros (e & H); discriminate|].
      intros [H | [(q & E & _ & Hlt) | (q & E & _ & Hno)]]; [discriminate| |].
      * injection E as <-. lia.
      * injection E as <-. contradiction.
    + split; [|intros _; eexists; reflexivity].
      intros _. right. right. exists (c :: p). repeat split; [discriminate|].
      intros Hw. apply payload_pattern_matches in Hw. congruence.
  - split; [intros (e & H); discriminate|].
    intros [H | [(p & E & _) | (p & E & _)]]; discriminate.
Qed.

(** X2. For a valid username, a non-empty run of payload characters
    followed by one line feed, within the length limit, passes the payload
    test: the URL comes out with the line feed in it. *)
Lemma create_deep_linked_url_line_feed
    (bot_username w : str) (group : bool) :
  is_valid_bot_username (Some bot_username) = true ->
  w <> [] -> Forall payload_char w -> length w < DEEP_LINK_LENGTH ->
  create_deep_linked_url bot_username (Some (w ++ [newline])) group
  = Ok (lit "https://t.me/" ++ bot_username
          ++ (if group then lit "?startgroup=" else lit "?start=") ++ w ++ [newline]).
Proof.
  intros Hvalid Hne Hw Hlen. unfold create_deep_linked_url.
  rewrite Hvalid. cbn [negb].
  destruct (w ++ [newline]) as [|c p] eqn:E.
  { apply app_eq_nil in E as [_ E]. discriminate. }
  rewrite <- E.
  destruct (Nat.ltb_spec DEEP_LINK_LENGTH (length (w ++ [newline]))) as [Hlt|_].
  { rewrite length_app in Hlt. simpl in Hlt. lia. }
  assert (re.match_ payload_pattern (w ++ [newline]) = true) as ->.
  { apply payload_pattern_matches. exists w. repeat split; auto. }
  cbn [negb]. rewrite <- app_assoc. now destruct group.
Qed.
End DeepLink.

(** C1. The payload [abc] followed by a line feed holds a character outside
    [A-Z a-z 0-9 _ -], and [create_deep_linked_url] does not raise on it: it
    returns the URL with the line feed in it.  The pattern's [$] also matches
    just before a final line feed. *)
Theorem create_deep_linked_url_trailing_newline (R : PyRuntime) :
  ~ payload_char newline
  /\ @create_deep_linked_url R telegram_limits
       (lit "abot") (Some (lit "abc" ++ [newline])) false
     = Ok (lit "https://t.me/abot?start=abc" ++ [newline]).
Proof.
  split.
  - unfold payload_char, newline. cbv [chr N_of_ascii N_of_digits]. simpl. lia.
  - unfold create_deep_linked_url.
    rewrite is_valid_bot_username_ascii by reflexivity.
    reflexivity.
Qed.

(** ** The model at work

    The examples of the specification, on [ascii_runtime] and
    [telegram_limits]. *)

Section Examples.
#[local] Existing Instance telegram_limits.

Example escape_markdown_v1 :
  escape_markdown (lit "*_[") (PyInt 1) None = Ok (lit "\*\_\[").
Proof. reflexivity. Qed.

Example escape_markdown_v2_code :
  escape_markdown (lit "a`b") (PyInt 2) (Some (lit "code")) = Ok (lit "a\`b")
  /\ escape_markdown (lit "a`b.") (PyInt 2) None = Ok (lit "a\`b\.")
  /\ escape_markdown (lit "a`b.") (PyInt 2) (Some (lit "code")) = Ok (lit "a\`b.").
Proof. repeat split. Qed.

Example escape_markdown_v3 :
  escape_markdown (lit "x") (PyInt 3) None
  = Raise (ValueError (lit "Markdown version must be either 1 or 2!")).
Proof. reflexivity. Qed.

Example mention_html_amp :
  mention_html (PyInt 123) (lit "A&B")
  = lit "<a href=" ++ [dquote] ++ lit "tg://user?id=123" ++ [dquote] ++ lit ">A&amp;B</a>".
Proof. reflexivity. Qed.

Example mention_markdown_versions :
  mention_markdown (PyInt 123) (lit "A*B") (PyInt 1) = Ok (lit "[A*B](tg://user?id=123)")
  /\ mention_markdown (PyInt 123) (lit "A*B") (PyInt 2) = Ok (lit "[A\*B](tg://user?id=123)").
Proof. split; reflexivity. Qed.

Example is_valid_bot_username_samples :
  map (fun s => is_valid_bot_username (Some s))
      [lit "JamesTheMockBot"; lit "jamesthemockbot"; lit "_jamesbot"; lit "1amesbot"; lit "ab"]
  = [true; true; false; false; false]
  /\ is_valid_bot_username None = false.
Proof. split; reflexivity. Qed.

Example create_deep_linked_url_samples :
  create_deep_linked_url (lit "JamesTheMockBot") (Some (lit "abc-123")) false
  = Ok (lit "https://t.me/JamesTheMockBot?start=abc-123")
  /\ create_deep_linked_url (lit "JamesTheMockBot") (Some (lit "abc-123")) true
     = Ok (lit "https://t.me/JamesTheMockBot?startgroup=abc-123")
  /\ create_deep_linked_url (lit "bad!") (Some (lit "x")) false
     = Raise (ValueError (lit "You must provide a valid bot_username."))
  /\ (exists msg, create_deep_linked_url (lit "abot") (Some (lit "a b")) false
                  = Raise (ValueError msg))
  /\ create_deep_linked_url (lit "abot") (Some (repeat (chr "a") 65)) false
     = Raise (ValueError (lit "The deep-linking payload must not exceed 64 characters.")).
Proof. repeat split. eexists. reflexivity. Qed.
End Examples.

(** ** Instances of the conditional theorems *)

Lemma escape_markdown_spec_witness :
  @int ascii_runtime (PyInt 2) = Ok 2%Z
  /\ @escape_markdown ascii_runtime (lit "a.b\c") (PyInt 2) (Some (lit "text_link"))
     = Ok (lit "a.b\\c").
Proof.
  split; [reflexivity|].
  exact (@escape_markdown_spec ascii_runtime (lit "a.b\c") (PyInt 2)
           (Some (lit "text_link")) 2%Z eq_refl (or_intror eq_refl)).
Defined.

Lemma escape_markdown_errors_witness :
  @escape_markdown ascii_runtime (lit "x") (PyInt 3) None
  = Raise (ValueError (lit "Markdown version must be either 1 or 2!"))
  /\ @escape_markdown ascii_runtime (lit "x") (PyStr (lit "two")) None
     = Raise (ValueError (lit "invalid literal for int() with base 10"))
  /\ exists escaped,
       @escape_markdown ascii_runtime (lit "x") (PyStr (lit "2")) (Some (lit "pre"))
       = Ok escaped.
Proof.
  split; [|split].
  - apply (proj1 (@escape_markdown_errors ascii_runtime (lit "x") (PyInt 3) None) 3%Z);
      [reflexivity | discriminate | discriminate].
  - apply (proj1 (proj2 (@escape_markdown_errors ascii_runtime (lit "x") (PyStr (lit "two")) None))).
    reflexivity.
  - apply (proj2 (proj2 (@escape_markdown_errors ascii_runtime (lit "x") (PyStr (lit "2"))
                           (Some (lit "pre")))) 2%Z);
      [reflexivity | right; reflexivity].
Defined.

Lemma escape_markdown_identity_witness :
  @escape_markdown ascii_runtime (lit "a_b") (PyInt 2) (Some (lit "code")) = Ok (lit "a_b").
Proof.
  apply (@escape_markdown_identity ascii_runtime (lit "a_b") (PyInt 2) (Some (lit "code")) 2%Z);
    [reflexivity | right; reflexivity |].
  intros c Hc Hcls. vm_compute in Hc, Hcls.
  destruct Hc as [<- | [<- | [<- | []]]];
    destruct Hcls as [H | [H | []]]; discriminate.
Defined.

Lemma escape_markdown_not_idempotent_witness :
  exists once twice,
    @escape_markdown ascii_runtime (lit "a*b") (PyInt 1) None = Ok once
    /\ @escape_markdown ascii_runtime once (PyInt 1) None = Ok twice
    /\ twice <> once
    /\ length once < length twice.
Proof.
  apply (@escape_markdown_not_idempotent ascii_runtime (lit "a*b") (PyInt 1) None 1%Z);
    [reflexivity | left; reflexivity |].
  exists (chr "*"). split; [right; left; reflexivity | right; left; reflexivity].
Defined.

Lemma mention_markdown_spec_witness :
  @mention_markdown ascii_runtime (PyInt 123) (lit "A*B") (PyStr (lit "2"))
  = Ok (lit "[A\*B](tg://user?id=123)")
  /\ @mention_markdown ascii_runtime (PyInt 123) (lit "A*B") (PyInt 3)
     = Raise (ValueError (lit "Markdown version must be either 1 or 2!")).
Proof.
  pose proof (@mention_markdown_spec ascii_runtime (PyInt 123) (lit "A*B"))
    as (_ & Hok & Herr & _).
  split.
  - apply (Hok (PyStr (lit "2")) (lit "A\*B")); reflexivity.
  - apply (Herr (PyInt 3)); reflexivity.
Defined.

Lemma create_deep_linked_url_value_witness :
  @is_valid_bot_username ascii_runtime telegram_limits (Some (lit "JamesTheMockBot")) = true
  /\ @create_deep_linked_url ascii_runtime telegram_limits
       (lit "JamesTheMockBot") (Some (lit "abc-123")) true
     = Ok (lit "https://t.me/JamesTheMockBot?startgroup=abc-123").
Proof.
  split; [reflexivity|].
  apply (proj2 (@create_deep_linked_url_value ascii_runtime telegram_limits
                  (lit "JamesTheMockBot") (Some (lit "abc-123")) true eq_refl)
           (lit "abc-123") eq_refl).
  - discriminate.
  - vm_compute. repeat constructor.
  - apply forallb_payload_chars. reflexivity.
Defined.

(** * Further properties of the helpers *)

(** ** [escape_markdown]: shape of the result *)

Lemma insert_backslashes_app (cls : list char) (a b : str) :
  insert_backslashes cls (a ++ b) = insert_backslashes cls a ++ insert_backslashes cls b.
Proof. unfold insert_backslashes. apply flat_map_app. Qed.

Lemma insert_backslashes_count (cls : list char) (text : str) :
  length (insert_backslashes cls text)
  = length text + length (filter (fun c => member c cls) text).
Proof.
  unfold insert_backslashes.
  induction text as [|c text IH]; simpl; [reflexivity|].
  rewrite length_app, IH. destruct (member c cls); simpl; lia.
Qed.

Lemma insert_backslashes_well_escaped (cls : list char) (text : str) :
  well_escaped cls (insert_backslashes cls text).
Proof.
  unfold insert_backslashes.
  induction text as [|c text IH]; simpl; [constructor|].
  destruct (member c cls) eqn:Hc; simpl; now constructor.
Qed.

(** The result never starts with a bare character of the class. *)
Lemma insert_backslashes_head (cls : list char) (text : str) (c : char) (rest : str) :
  insert_backslashes cls text = c :: rest -> member c cls = true -> c = backslash.
Proof.
  unfold insert_backslashes. destruct text as [|d text]; simpl; [discriminate|].
  destruct (member d cls) eqn:Hd; simpl; intros E Hc; injection E as <- _;
    [reflexivity | congruence].
Qed.

Lemma insert_backslashes_inj (cls : list char) (a b : str) :
  insert_backslashes cls a = insert_backslashes cls b -> a = b.
Proof.
  revert b; induction a as [|x a IH]; intros [|y b] E.
  - reflexivity.
  - unfold insert_backslashes in E. simpl in E.
    destruct (member y cls); discriminate.
  - unfold insert_backslashes in E. simpl in E.
    destruct (member x cls); discriminate.
  - assert (Hx := insert_backslashes_head cls a).
    assert (Hy := insert_backslashes_head cls b).
    unfold insert_backslashes in *. simpl in E.
    destruct (member x cls) eqn:Ex, (member y cls) eqn:Ey; simpl in E.
    + injection E as -> E. f_equal. now apply IH.
    + injection E as <- E. symmetry in E.
      specialize (Hy _ _ E Ex). subst x. congruence.
    + injection E as -> E.
      specialize (Hx _ _ E Ey). subst y. congruence.
    + injection E as -> E. f_equal. now apply IH.
Qed.

Section EscapeShape.
Context {R : PyRuntime}.

(** X3. For the versions 1 and 2 and a fixed entity-type hint,
    [escape_markdown] maps different texts to different results: no two
    texts escape to the same string. *)
Theorem escape_markdown_injective
    (a b : str) (version : pyobj) (entity_type : option str) (z : Z) :
  int version = Ok z -> z = 1%Z \/ z = 2%Z ->
  a <> b ->
  escape_markdown a version entity_type <> escape_markdown b version entity_type.
Proof.
  intros Hint Hz Hab.
  rewrite !(escape_markdown_value _ version entity_type Hint Hz).
  intros E. injection E as E. now apply insert_backslashes_inj in E.
Qed.

(** X4. For the versions 1 and 2, escaping a concatenation gives the
    concatenation of the escaped parts: a text may be escaped piece by
    piece. *)
Theorem escape_markdown_app
    (a b : str) (version : pyobj) (entity_type : option str) (z : Z) :
  int version = Ok z -> z = 1%Z \/ z = 2%Z ->
  exists ea eb,
    escape_markdown a version entity_type = Ok ea
    /\ escape_markdown b version entity_type = Ok eb
    /\ escape_markdown (a ++ b) version entity_type = Ok (ea ++ eb).
Proof.
  intros Hint Hz.
  rewrite !(escape_markdown_value _ version entity_type Hint Hz).
  do 2 eexists. repeat split. now rewrite insert_backslashes_app.
Qed.

(** X5. For the versions 1 and 2, the result is longer than the text by
    exactly the number of characters of the text that are in the active
    class; so it has at least the length of the text and at most twice
    it. *)
Theorem escape_markdown_length
    (text : str) (version : pyobj) (entity_type : option str) (z : Z) :
  int version = Ok z -> z = 1%Z \/ z = 2%Z ->
  exists escaped,
    escape_markdown text version entity_type = Ok escaped
    /\ length escaped
       = length text
         + length (filter (fun c => member c (active_class z entity_type)) text)
    /\ length text <= length escaped <= 2 * length text.
Proof.
  intros Hint Hz.
  rewrite (escape_markdown_value text version entity_type Hint Hz).
  eexists. split; [reflexivity|].
  rewrite insert_backslashes_count.
  pose proof (filter_length_le (fun c => member c (active_class z entity_type)) text).
  lia.
Qed.

(** X6. For the versions 1 and 2, the result leaves no character of the
    active class bare: it is a sequence of characters outside the class and
    of pairs made of a backslash and a character of the class. *)
Theorem escape_markdown_well_escaped
    (text : str) (version : pyobj) (entity_type : option str) (z : Z) :
  int version = Ok z -> z = 1%Z \/ z = 2%Z ->
  exists escaped,
    escape_markdown text version entity_type = Ok escaped
    /\ well_escaped (active_class z entity_type) escaped.
Proof.
  intros Hint Hz.
  rewrite (escape_markdown_value text version entity_type Hint Hz).
  eexists. split; [reflexivity | apply insert_backslashes_well_escaped].
Qed.

End EscapeShape.

(** A bare character of the class cannot open a well-escaped text. *)
Lemma well_escaped_head (cls : list char) (c : char) (rest : str) :
  well_escaped cls (c :: rest) -> member c cls = true -> c = backslash.
Proof.
  intros H Hc. inversion H; subst; [congruence | reflexivity].
Qed.

(** ** [mention_markdown]: a version given as a string *)

Section MentionVersion.
Context {R : PyRuntime}.

(** X7. A version given as a string that [int] reads as 1 does not compare
    equal to the integer 1, so [mention_markdown] sends the name through the
    escaper: the link text is the name escaped with the class of version 1,
    and the result differs from the one for the integer 1 as soon as the
    name holds a character of that class. *)
Theorem mention_markdown_str_version (user_id : pyobj) (name s : str) :
  int_of_str s = Ok 1%Z ->
  mention_markdown user_id name (PyStr s)
  = Ok (lit "[" ++ insert_backslashes (active_class 1 None) name
          ++ lit "](tg://user?id=" ++ format user_id ++ lit ")")
  /\ ((exists c, In c name /\ In c (active_class 1 None)) ->
      mention_markdown user_id name (PyStr s)
      <> mention_markdown user_id name (PyInt 1)).
Proof.
  intros Hs.
  assert (Hv : mention_markdown user_id name (PyStr s)
               = Ok (lit "[" ++ insert_backslashes (active_class 1 None) name
                       ++ lit "](tg://user?id=" ++ format user_id ++ lit ")")).
  { unfold mention_markdown. cbn [eq_int].
    now rewrite (escape_markdown_value name (PyStr s) None Hs (or_introl eq_refl)). }
  split; [exact Hv|].
  intros Hcls E. rewrite Hv in E. unfold mention_markdown in E.
  cbn [eq_int Z.eqb Pos.eqb] in E. injection E as E.
  apply app_inv_tail in E.
  apply insert_backslashes_longer in Hcls. rewrite E in Hcls. lia.
Qed.
End MentionVersion.

(** ** [mention_html]: the name cannot open or close markup *)

Ltac entity_chars :=
  let H := fresh "H" in
  let M := fresh "M" in
  intros H; vm_compute in H; intros M; vm_compute in M;
  repeat (destruct H as [<- | H]; [intuition discriminate|]); exact H.

Lemma html_entity_no_markup (c d : char) :
  In d (html_entity c) -> ~ In d html_markup.
Proof.
  unfold html_entity.
  destruct (N.eqb_spec c (chr "&")) as [->|H1].
  { entity_chars. }
  destruct (N.eqb_spec c (chr "<")) as [->|H2].
  { entity_chars. }
  destruct (N.eqb_spec c (chr ">")) as [->|H3].
  { entity_chars. }
  destruct (N.eqb_spec c dquote) as [->|H4].
  { entity_chars. }
  destruct (N.eqb_spec c (chr "'")) as [->|H5].
  { entity_chars. }
  intros [<- | []] M. unfold html_markup in M. simpl in M.
  destruct M as [M | [M | [M | [M | []]]]]; symmetry in M;
    [exact (H2 M) | exact (H3 M) | exact (H4 M) | exact (H5 M)].
Qed.

(** X8. In the anchor [mention_html] builds, the text between [>] and
    [</a>] holds none of the characters [<], [>], double quote and single
    quote, whatever the name: the name cannot close the anchor or open
    another element. *)
Theorem mention_html_name_safe (user_id : pyobj) (name : str) :
  exists body,
    mention_html user_id name
    = lit "<a href=" ++ [dquote] ++ lit "tg://user?id=" ++ format user_id
        ++ [dquote] ++ lit ">" ++ body ++ lit "</a>"
    /\ (forall c, In c body -> ~ In c html_markup).
Proof.
  exists (html.escape name). split; [reflexivity|].
  rewrite html_escape_encode. unfold encode_entities.
  intros c Hc. apply in_flat_map in Hc as (d & _ & Hd).
  now apply html_entity_no_markup in Hd.
Qed.

(** ** [effective_message_type]: one populated sub-field *)

Lemma find_unique (A : Type) (f : A -> bool) (l : list A) (x : A) :
  In x l -> f x = true -> (forall y, In y l -> f y = true -> y = x) ->
  find f l = Some x.
Proof.
  induction l as [|a l IH]; intros Hin Hx Huniq; [destruct Hin|]. simpl.
  destruct (f a) eqn:Ha.
  - f_equal. apply Huniq; [now left | assumption].
  - destruct Hin as [-> | Hin]; [congruence|].
    apply IH; auto. intros y Hy. apply Huniq. now right.
Qed.

(** X11. When exactly one tag of the enumeration has a truthy sub-field on
    a message, [effective_message_type] returns that tag, for the message
    itself and for an update that carries it. *)
Theorem effective_message_type_single
    (MessageType : list str) (m : Message) (tag : str) :
  In tag MessageType -> getitem m tag = true ->
  (forall t, In t MessageType -> getitem m t = true -> t = tag) ->
  effective_message_type MessageType (IsMessage m) = Ok (Some tag)
  /\ effective_message_type MessageType (IsUpdate {| effective_message := Some m |})
     = Ok (Some tag).
Proof.
  intros Hin Htag Huniq. simpl.
  now rewrite (find_unique (fun t => getitem m t) MessageType Hin Htag Huniq).
Qed.

(** ** [is_valid_bot_username]: what a valid username looks like *)

Ltac chr_codes :=
  change (chr "A") with 65%N in *; change (chr "Z") with 90%N in *;
  change (chr "a") with 97%N in *; change (chr "z") with 122%N in *;
  change (chr "0") with 48%N in *; change (chr "9") with 57%N in *;
  change (chr "_") with 95%N in *; change (chr "-") with 45%N in *;
  change (chr "?") with 63%N in *.

Lemma word_char_ascii (c : char) : word_char c -> is_ascii c = true.
Proof.
  unfold word_char, is_ascii. chr_codes. intros H. apply N.ltb_lt. lia.
Qed.

Lemma ascii_lower_cases (c : char) :
  ((65 <= c <= 90)%N /\ ascii_lower c = (c + 32)%N)
  \/ (~ (65 <= c <= 90)%N /\ ascii_lower c = c).
Proof.
  unfold ascii_lower, is_ascii_upper. chr_codes.
  destruct (N.leb_spec 65 c), (N.leb_spec c 90); simpl; lia.
Qed.

Lemma ascii_lower_idem (c : char) : ascii_lower (ascii_lower c) = ascii_lower c.
Proof.
  destruct (ascii_lower_cases c) as [[Hc E] | [Hc E]]; rewrite E.
  - destruct (ascii_lower_cases (c + 32)%N) as [[H _] | [_ E2]]; [lia | exact E2].
  - exact E.
Qed.

Lemma word_char_ascii_lower (c : char) : word_char (ascii_lower c) <-> word_char c.
Proof.
  unfold word_char.
  destruct (ascii_lower_cases c) as [[Hc ->] | [Hc ->]]; chr_codes; lia.
Qed.

Lemma username_chars_ascii_lower (s : str) :
  forallb (re.in_set username_chars) (map ascii_lower s)
  = forallb (re.in_set username_chars) s.
Proof.
  induction s as [|c s IH]; simpl map; cbn [forallb]; [reflexivity|].
  rewrite IH. f_equal. apply eq_true_iff_eq.
  rewrite !username_chars_word. apply word_char_ascii_lower.
Qed.

Lemma username_chars_ascii (s : str) :
  forallb (re.in_set username_chars) s = true -> forallb is_ascii s = true.
Proof.
  rewrite !forallb_forall. intros H c Hc.
  now apply word_char_ascii, username_chars_word, H.
Qed.

Section UsernameShape.
Context {R : PyRuntime} {L : MessageLimit}.

(** X9. Whatever the configured limits, a username that
    [is_valid_bot_username] accepts is made of ASCII characters only, has at
    least three characters, starts with an ASCII letter, and ends with the
    letters b, o, t in upper or lower case. *)
Theorem is_valid_bot_username_shape (s : str) :
  is_valid_bot_username (Some s) = true ->
  forallb is_ascii s = true
  /\ 3 <= length s
  /\ (exists c rest, s = c :: rest /\ is_ascii_upper c || is_ascii_lower c = true)
  /\ (exists front, map ascii_lower s = front ++ lit "bot").
Proof.
  intros H. apply is_valid_bot_username_tests in H
    as (_ & Hbot & Hus & Hdig & Hchars).
  unfold username_pattern in Hchars. rewrite fullmatch_star in Hchars.
  pose proof (username_chars_ascii s Hchars) as Hascii.
  rewrite (lower_ascii s Hascii) in Hbot, Hus, Hdig.
  apply endswith_suffix in Hbot as [front Hfront].
  assert (Hlen : length s = length front + 3).
  { rewrite <- (length_map ascii_lower s), Hfront, length_app. reflexivity. }
  split; [assumption|]. split; [lia|]. split; [|now exists front].
  destruct s as [|c rest]; [simpl in Hlen; lia|].
  exists c, rest. split; [reflexivity|].
  simpl in Hchars, Hascii, Hus, Hdig.
  apply andb_true_iff in Hchars as [Hc _]. apply andb_true_iff in Hascii as [Ha _].
  apply username_chars_word in Hc.
  rewrite andb_true_r in Hdig.
  rewrite chr_isdigit_ascii in Hdig by now apply ascii_lower_is_ascii.
  unfold startswith in Hus. simpl in Hus. rewrite andb_true_r in Hus.
  apply N.eqb_neq in Hus.
  unfold is_ascii_digit, is_ascii_upper, is_ascii_lower, word_char in *.
  destruct (ascii_lower_cases c) as [[Hup E] | [Hup E]]; rewrite E in Hus, Hdig;
    chr_codes; apply orb_true_iff; rewrite !andb_true_iff, !N.leb_le;
    apply andb_false_iff in Hdig; rewrite !N.leb_gt in Hdig; lia.
Qed.

(** X10. On ASCII text the verdict does not depend on letter case: a
    username and its lower-cased form are both valid or both invalid. *)
Theorem is_valid_bot_username_lower (s : str) :
  forallb is_ascii s = true ->
  is_valid_bot_username (Some (lower s)) = is_valid_bot_username (Some s).
Proof.
  intros Hascii. unfold is_valid_bot_username. cbv zeta.
  assert (Hlow : forallb is_ascii (map ascii_lower s) = true).
  { clear - Hascii. induction s as [|c s IH]; [reflexivity|]. simpl in *.
    apply andb_true_iff in Hascii as [Hc Hs].
    now rewrite ascii_lower_is_ascii, IH. }
  rewrite (lower_ascii s Hascii), (lower_ascii _ Hlow), length_map.
  rewrite map_map, (map_ext _ _ ascii_lower_idem).
  unfold username_pattern. rewrite !fullmatch_star, username_chars_ascii_lower.
  reflexivity.
Qed.

End UsernameShape.

(** ** [create_deep_linked_url]: the URL tells the arguments *)

Lemma query_of_head (payload : str) (group : bool) :
  query_of payload group = [] \/ exists rest, query_of payload group = chr "?" :: rest.
Proof.
  destruct payload; [now left | right]. eexists. reflexivity.
Qed.

Lemma query_of_inj (p q : str) (g h : bool) :
  query_of p g = query_of q h -> p = q /\ (p <> [] -> g = h).
Proof.
  destruct p as [|c p], q as [|d q]; simpl.
  - intros _. split; [reflexivity | congruence].
  - destruct h; discriminate.
  - destruct g; discriminate.
  - destruct g, h; intros E; try discriminate;
      (apply (app_inv_head (lit "?startgroup=")) in E
       || apply (app_inv_head (lit "?start=")) in E); now split.
Qed.

(** A run of username characters followed by nothing or by [?...] splits in
    one way only. *)
Lemma username_split (u v q r : str) :
  forallb (re.in_set username_chars) u = true ->
  forallb (re.in_set username_chars) v = true ->
  (q = [] \/ exists t, q = chr "?" :: t) ->
  (r = [] \/ exists t, r = chr "?" :: t) ->
  u ++ q = v ++ r -> u = v /\ q = r.
Proof.
  revert v; induction u as [|c u IH]; intros [|d v] Hu Hv Hqs Hrs E;
    cbn [forallb app] in *.
  - now split.
  - apply andb_true_iff in Hv as [Hd _].
    destruct Hqs as [-> | [t ->]]; [discriminate|].
    injection E as <- _. discriminate.
  - apply andb_true_iff in Hu as [Hc _].
    destruct Hrs as [-> | [t ->]]; [discriminate|].
    injection E as -> _. discriminate.
  - apply andb_true_iff in Hu as [_ Hu]. apply andb_true_iff in Hv as [_ Hv].
    injection E as -> E. destruct (IH v Hu Hv Hqs Hrs E) as [-> ->]. now split.
Qed.

Section DeepLinkShape.
Context {R : PyRuntime} {L : MessageLimit}.

Lemma create_deep_linked_url_ok_shape
    (bot_username : str) (payload : option str) (group : bool) (url : str) :
  create_deep_linked_url bot_username payload group = Ok url ->
  forallb (re.in_set username_chars) bot_username = true
  /\ url = lit "https://t.me/" ++ bot_username ++ query_of (text_of payload) group.
Proof.
  unfold create_deep_linked_url.
  destruct (is_valid_bot_username (Some bot_username)) eqn:Hvalid; cbn [negb];
    [|discriminate].
  apply is_valid_bot_username_tests in Hvalid as (_ & _ & _ & _ & Hchars).
  unfold username_pattern in Hchars. rewrite fullmatch_star in Hchars.
  intros H. split; [assumption|].
  destruct payload as [[|c p]|]; cbn [text_of query_of].
  - injection H as <-. now rewrite app_nil_r.
  - destruct (DEEP_LINK_LENGTH <? length (c :: p)); [discriminate|].
    destruct (re.match_ payload_pattern (c :: p)); cbn [negb] in H; [|discriminate].
    injection H as <-. reflexivity.
  - injection H as <-. now rewrite app_nil_r.
Qed.

(** X12. Two calls of [create_deep_linked_url] that return the same URL
    were given the same username and the same payload (an absent payload
    counting as the empty one) and, when the payload is not empty, the same
    group flag. *)
Theorem create_deep_linked_url_injective
    (u v : str) (p q : option str) (g h : bool) (url : str) :
  create_deep_linked_url u p g = Ok url ->
  create_deep_linked_url v q h = Ok url ->
  u = v /\ text_of p = text_of q /\ (text_of p <> [] -> g = h).
Proof.
  intros Hu Hv.
  apply create_deep_linked_url_ok_shape in Hu as (Hcu & Eu).
  apply create_deep_linked_url_ok_shape in Hv as (Hcv & Ev).
  rewrite Eu in Ev. apply app_inv_head in Ev.
  apply username_split in Ev as [-> Eq]; auto using query_of_head.
  split; [reflexivity|]. now apply query_of_inj.
Qed.

End DeepLinkShape.

(** ** Instances of the further properties *)

Lemma create_deep_linked_url_line_feed_witness :
  @create_deep_linked_url ascii_runtime telegram_limits
    (lit "abot") (Some (lit "abc" ++ [newline])) true
  = Ok (lit "https://t.me/abot?startgroup=abc" ++ [newline]).
Proof.
  apply (@create_deep_linked_url_line_feed ascii_runtime telegram_limits
           (lit "abot") (lit "abc") true).
  - reflexivity.
  - discriminate.
  - apply forallb_payload_chars. reflexivity.
  - simpl. lia.
Defined.

Lemma escape_markdown_injective_witness :
  @escape_markdown ascii_runtime (lit "a_b") (PyInt 2) None
  <> @escape_markdown ascii_runtime (lit "a\_b") (PyInt 2) None.
Proof.
  apply (@escape_markdown_injective ascii_runtime (lit "a_b") (lit "a\_b") (PyInt 2) None 2%Z);
    [reflexivity | right; reflexivity | discriminate].
Defined.

Lemma escape_markdown_app_witness :
  exists ea eb,
    @escape_markdown ascii_runtime (lit "1.") (PyInt 2) None = Ok ea
    /\ @escape_markdown ascii_runtime (lit "5!") (PyInt 2) None = Ok eb
    /\ @escape_markdown ascii_runtime (lit "1." ++ lit "5!") (PyInt 2) None = Ok (ea ++ eb).
Proof.
  apply (@escape_markdown_app ascii_runtime (lit "1.") (lit "5!") (PyInt 2) None 2%Z);
    [reflexivity | right; reflexivity].
Defined.

Lemma escape_markdown_length_witness :
  exists escaped,
    @escape_markdown ascii_runtime (lit "a*b_c") (PyInt 1) None = Ok escaped
    /\ length escaped = 5 + 2
    /\ 5 <= length escaped <= 10.
Proof.
  apply (@escape_markdown_length ascii_runtime (lit "a*b_c") (PyInt 1) None 1%Z);
    [reflexivity | left; reflexivity].
Defined.

Lemma escape_markdown_well_escaped_witness :
  exists escaped,
    @escape_markdown ascii_runtime (lit "a\b`") (PyInt 2) (Some (lit "code")) = Ok escaped
    /\ well_escaped [backslash; chr "`"] escaped.
Proof.
  apply (@escape_markdown_well_escaped ascii_runtime (lit "a\b`") (PyInt 2)
           (Some (lit "code")) 2%Z);
    [reflexivity | right; reflexivity].
Defined.

Lemma mention_markdown_str_version_witness :
  @mention_markdown ascii_runtime (PyInt 123) (lit "A*B") (PyStr (lit "1"))
  = Ok (lit "[A\*B](tg://user?id=123)")
  /\ @mention_markdown ascii_runtime (PyInt 123) (lit "A*B") (PyStr (lit "1"))
     <> @mention_markdown ascii_runtime (PyInt 123) (lit "A*B") (PyInt 1).
Proof.
  pose proof (@mention_markdown_str_version ascii_runtime (PyInt 123) (lit "A*B") (lit "1")
                eq_refl) as [Hv Hne].
  split; [exact Hv|].
  apply Hne. exists (chr "*"). split; [right; left; reflexivity | right; left; reflexivity].
Defined.

Lemma is_valid_bot_username_shape_witness :
  forallb is_ascii (lit "JamesTheMockBot") = true
  /\ 3 <= length (lit "JamesTheMockBot")
  /\ (exists c rest, lit "JamesTheMockBot" = c :: rest
                     /\ is_ascii_upper c || is_ascii_lower c = true)
  /\ (exists front, map ascii_lower (lit "JamesTheMockBot") = front ++ lit "bot").
Proof.
  apply (@is_valid_bot_username_shape ascii_runtime telegram_limits (lit "JamesTheMockBot")).
  reflexivity.
Defined.

Lemma is_valid_bot_username_lower_witness :
  @is_valid_bot_username ascii_runtime telegram_limits (Some (lit "jamesthemockbot"))
  = @is_valid_bot_username ascii_runtime telegram_limits (Some (lit "JamesTheMockBot")).
Proof.
  apply (@is_valid_bot_username_lower ascii_runtime telegram_limits (lit "JamesTheMockBot")).
  reflexivity.
Defined.

Lemma effective_message_type_single_witness :
  effective_message_type [lit "text"; lit "photo"]
    (IsMessage {| getitem := fun t => str_eqb t (lit "photo") |})
  = Ok (Some (lit "photo"))
  /\ effective_message_type [lit "text"; lit "photo"]
       (IsUpdate {| effective_message :=
                      Some {| getitem := fun t => str_eqb t (lit "photo") |} |})
     = Ok (Some (lit "photo")).
Proof.
  apply (@effective_message_type_single [lit "text"; lit "photo"]
           {| getitem := fun t => str_eqb t (lit "photo") |} (lit "photo")).
  - right. left. reflexivity.
  - reflexivity.
  - intros t _ Ht. now apply str_eqb_eq in Ht.
Defined.

Lemma create_deep_linked_url_injective_witness :
  @create_deep_linked_url ascii_runtime telegram_limits (lit "abot") None true
  = Ok (lit "https://t.me/abot")
  /\ @create_deep_linked_url ascii_runtime telegram_limits (lit "abot") (Some []) false
     = Ok (lit "https://t.me/abot")
  /\ lit "abot" = lit "abot"
  /\ text_of None = text_of (Some [])
  /\ (text_of None <> [] -> true = false).
Proof.
  split; [reflexivity|]. split; [reflexivity|].
  apply (@create_deep_linked_url_injective ascii_runtime telegram_limits
           (lit "abot") (lit "abot") None (Some []) true false (lit "https://t.me/abot"));
    reflexivity.
Defined.
